(** * Resolvers of the Firestore / Apollo GraphQL example (src/index.ts)

    The file embeds the four resolvers of [src/index.ts]
    ([User.tweets], [Tweets.user], [Query.tweets], [Query.user]) as programs
    of a small state-and-exception monad that talks to a model of the
    document store client, and proves the properties of the specification
    about them. *)

From Stdlib Require Import ZArith String.
From stdpp Require Import gmap strings list fin_maps pretty.

Local Open Scope string_scope.

(** ** JavaScript values *)

(** Field values of a document or of a parent object: the scalar values the
    schema uses.  Numbers stand for the integral counters of the schema
    ([statusesCount], [likes]); the resolvers never compute with them. *)
Inductive JsValue : Type :=
  | JsUndefined
  | JsNull
  | JsBool (b : bool)
  | JsNumber (n : Z)
  | JsString (s : string).

#[global] Instance JsValue_eq_dec : EqDecision JsValue.
Proof. solve_decision. Defined.

(** A plain object: the result of [snapshot.data()], and the parent object a
    field resolver receives. *)
Abbreviation DocumentData := (gmap string JsValue).

(** [obj.key]: a missing property reads as [undefined]. *)
Definition get_field (obj : DocumentData) (key : string) : JsValue :=
  default JsUndefined (obj !! key).

(** [`${v}`]: the string a template literal splices in for [v]. *)
Definition template_string (v : JsValue) : string :=
  match v with
  | JsUndefined => "undefined"
  | JsNull => "null"
  | JsBool true => "true"
  | JsBool false => "false"
  | JsNumber n => pretty n
  | JsString s => s
  end.

(** Error objects.  [Error] is what the store client raises; [ApolloError]
    and [ValidationError] are the two classes imported from apollo-server. *)
Inductive JsError : Type :=
  | Error (message : string)
  | ApolloError (cause : JsError)
  | ValidationError (message : string).

#[global] Instance JsError_eq_dec : EqDecision JsError.
Proof. solve_decision. Defined.

(** What a resolver can hand back to the GraphQL executor. *)
Inductive Value : Type :=
  | VUndefined
  | VObject (fields : DocumentData)
  | VArray (items : list DocumentData)
  | VError (e : JsError).

#[global] Instance Value_eq_dec : EqDecision Value.
Proof. solve_decision. Defined.

(** JavaScript truthiness: among the values above only [undefined] is falsy
    (every object, array and error instance is truthy). *)
Definition truthy (v : Value) : bool :=
  match v with
  | VUndefined => false
  | _ => true
  end.

(** [a || b] *)
Definition js_or (a b : Value) : Value := if truthy a then a else b.

(** ** The document store client *)

(** The calls the client offers.  The resolvers chain
    [admin.firestore().doc(p).get()], [.collection(c).get()] and
    [.collection(c).where(f, '==', v).get()]; each chain is one call.
    [DocSet] is the client's write, which no resolver uses. *)
Inductive StoreCall : Type :=
  | DocGet (documentPath : string)
  | CollectionGet (collectionPath : string)
  | WhereGet (collectionPath fieldPath : string) (value : JsValue)
  | DocSet (documentPath : string) (fields : DocumentData).

#[global] Instance StoreCall_eq_dec : EqDecision StoreCall.
Proof. solve_decision. Defined.

(** Modelled from the spec: the Document Store Client of spec section 6
    (firebase-admin's Firestore, an external collaborator that is not part of
    the repository).  The store holds documents under slash-separated paths,
    in the order a scan yields them.  [fault] tells, for each call, whether
    the client fails it and with which error: it stands for everything that can
    make a call fail (network, permission, timeout, an argument the client
    refuses). *)
Record Firestore : Type := mkFirestore {
  documents : list (string * DocumentData);
  fault : StoreCall -> option JsError
}.

(** [get(key) -> document | absent] *)
Fixpoint find_document (docs : list (string * DocumentData)) (path : string)
  : option DocumentData :=
  match docs with
  | [] => None
  | (p, d) :: rest => if decide (p = path) then Some d else find_document rest path
  end.

(** The id of [documentPath] inside collection [collectionPath], if the
    document lies directly in that collection. *)
Definition document_id (collectionPath documentPath : string) : option string :=
  let pre := collectionPath +:+ "/" in
  if String.prefix pre documentPath then
    let rest := String.substring (String.length pre)
                  (String.length documentPath - String.length pre) documentPath in
    match rest, String.index 0 "/" rest with
    | EmptyString, _ => None
    | _, Some _ => None
    | _, None => Some rest
    end
  else None.

Definition in_collection (collectionPath : string) (entry : string * DocumentData) : Prop :=
  is_Some (document_id collectionPath entry.1).

#[global] Instance in_collection_dec c entry : Decision (in_collection c entry).
Proof. unfold in_collection. apply _. Defined.

(** [scanAll(collection) -> sequence of document] *)
Definition scan (fs : Firestore) (collectionPath : string)
  : list (string * DocumentData) :=
  filter (in_collection collectionPath) (documents fs).

(** The filter of [where(fieldPath, '==', value)]: the document has the field
    and it equals the value. *)
Definition field_equals (fieldPath : string) (value : JsValue) (d : DocumentData) : Prop :=
  d !! fieldPath = Some value.

#[global] Instance field_equals_dec f v d : Decision (field_equals f v d).
Proof. unfold field_equals. apply _. Defined.

(** [query(collection, field, "==", value) -> sequence of document] *)
Definition scan_where (fs : Firestore) (collectionPath fieldPath : string)
    (value : JsValue) : list (string * DocumentData) :=
  filter (fun entry => field_equals fieldPath value entry.2) (scan fs collectionPath).

(** The client's write: replace the document at [path], or add it. *)
Fixpoint set_document (docs : list (string * DocumentData)) (path : string)
    (fields : DocumentData) : list (string * DocumentData) :=
  match docs with
  | [] => [(path, fields)]
  | (p, d) :: rest =>
      if decide (p = path) then (p, fields) :: rest
      else (p, d) :: set_document rest path fields
  end.

(** Snapshots, as the client returns them. [data()] of a document snapshot is
    [undefined] when the document does not exist; the snapshots of a query
    always carry data. *)
Record DocumentSnapshot : Type := mkDocumentSnapshot {
  snapshot_path : string;
  snapshot_fields : option DocumentData
}.

Definition data (snap : DocumentSnapshot) : Value :=
  match snapshot_fields snap with
  | Some d => VObject d
  | None => VUndefined
  end.

Record QueryDocumentSnapshot : Type := mkQueryDocumentSnapshot {
  query_doc_path : string;
  query_doc_data : DocumentData
}.

Record QuerySnapshot : Type := mkQuerySnapshot {
  docs : list QueryDocumentSnapshot
}.

Definition query_snapshot (entries : list (string * DocumentData)) : QuerySnapshot :=
  {| docs := (fun entry => mkQueryDocumentSnapshot entry.1 entry.2) <$> entries |}.

(** ** Asynchronous code as a state-and-exception monad *)

(** What an [async] body sees: the store, and the calls issued so far. *)
Record Session : Type := mkSession {
  store : Firestore;
  issued : list StoreCall
}.

Inductive Completion (A : Type) : Type :=
  | Normal (a : A)
  | Thrown (e : JsError).
Arguments Normal {A} a.
Arguments Thrown {A} e.

Definition Async (A : Type) : Type := Session -> Completion A * Session.

Definition ret {A} (a : A) : Async A := fun σ => (Normal a, σ).

Definition bind {A B} (m : Async A) (k : A -> Async B) : Async B :=
  fun σ =>
    match m σ with
    | (Normal a, σ') => k a σ'
    | (Thrown e, σ') => (Thrown e, σ')
    end.

Definition throw {A} (e : JsError) : Async A := fun σ => (Thrown e, σ).

(** [try { body } catch (error) { handler }] *)
Definition try_catch {A} (body : Async A) (handler : JsError -> Async A) : Async A :=
  fun σ =>
    match body σ with
    | (Normal a, σ') => (Normal a, σ')
    | (Thrown e, σ') => handler e σ'
    end.

Declare Scope async_scope.
Delimit Scope async_scope with async.
Notation "'await' x <- m ;; k" := (bind m (fun x => k))
  (at level 100, x name, m at next level, k at level 200, right associativity)
  : async_scope.
Local Open Scope async_scope.

(** The session after one more call was issued. *)
Definition logged (σ : Session) (call : StoreCall) : Session :=
  {| store := store σ; issued := issued σ ++ [call] |}.

(** A read call: logged, then failed by [fault] or answered from the store. *)
Definition read {A} (call : StoreCall) (answer : Firestore -> A) : Async A :=
  fun σ =>
    match fault (store σ) call with
    | Some e => (Thrown e, logged σ call)
    | None => (Normal (answer (store σ)), logged σ call)
    end.

(** [admin.firestore().doc(documentPath).get()] *)
Definition doc_get (documentPath : string) : Async DocumentSnapshot :=
  read (DocGet documentPath)
    (fun fs => mkDocumentSnapshot documentPath (find_document (documents fs) documentPath)).

(** [admin.firestore().collection(collectionPath).get()] *)
Definition collection_get (collectionPath : string) : Async QuerySnapshot :=
  read (CollectionGet collectionPath) (fun fs => query_snapshot (scan fs collectionPath)).

(** [admin.firestore().collection(collectionPath).where(fieldPath, '==', value).get()] *)
Definition collection_where_get (collectionPath fieldPath : string) (value : JsValue)
  : Async QuerySnapshot :=
  read (WhereGet collectionPath fieldPath value)
    (fun fs => query_snapshot (scan_where fs collectionPath fieldPath value)).

(** [admin.firestore().doc(documentPath).set(fields)] *)
Definition doc_set (documentPath : string) (fields : DocumentData) : Async unit :=
  fun σ =>
    let call := DocSet documentPath fields in
    match fault (store σ) call with
    | Some e => (Thrown e, logged σ call)
    | None =>
        (Normal tt,
         {| store := {| documents := set_document (documents (store σ)) documentPath fields;
                        fault := fault (store σ) |};
            issued := issued σ ++ [call] |})
    end.

(** ** The resolvers (src/index.ts, lines 51-100) *)

(** A field resolver receives its parent object ([user], [tweet]) from the
    GraphQL executor; [Query.user] receives the [id] of its [args], a string
    by the schema ([id: String!]). *)

Module User.
(** [async tweets(user)] *)
Definition tweets (user : DocumentData) : Async Value :=
  try_catch
    (await userTweets <- collection_where_get "tweets" "userId" (get_field user "id") ;;
     ret (VArray (query_doc_data <$> docs userTweets)))
    (fun error => throw (ApolloError error)).
End User.

Module Tweets.
(** [async user(tweet)] *)
Definition user (tweet : DocumentData) : Async Value :=
  try_catch
    (await tweetAuthor <- doc_get ("users/" +:+ template_string (get_field tweet "userId")) ;;
     ret (data tweetAuthor))
    (fun error => throw (ApolloError error)).
End Tweets.

Module Query.
(** [async tweets()] *)
Definition tweets : Async Value :=
  await tweets <- collection_get "tweets" ;;
  ret (VArray (query_doc_data <$> docs tweets)).

(** [async user(_: null, args: { id: string })] *)
Definition user (id : string) : Async Value :=
  try_catch
    (await userDoc <- doc_get ("users/" +:+ id) ;;
     let user := data userDoc in
     ret (js_or user (VError (ValidationError "User ID not found"))))
    (fun error => throw (ApolloError error)).
End Query.

(** ** Running a resolver *)

(** The promise an [async] function returns, once settled. *)
Inductive Promise : Type :=
  | Fulfilled (v : Value)
  | Rejected (e : JsError).

#[global] Instance Promise_eq_dec : EqDecision Promise.
Proof. solve_decision. Defined.

Definition settle (c : Completion Value) : Promise :=
  match c with
  | Normal v => Fulfilled v
  | Thrown e => Rejected e
  end.

Definition begin (fs : Firestore) : Session := {| store := fs; issued := [] |}.

(** The settled promise of one resolver run against store [fs]. *)
Definition outcome (m : Async Value) (fs : Firestore) : Promise :=
  settle (m (begin fs)).1.

(** The store calls the run issued, in order. *)
Definition calls (m : Async Value) (fs : Firestore) : list StoreCall :=
  issued (m (begin fs)).2.

(** The store after the run. *)
Definition store_after (m : Async Value) (fs : Firestore) : Firestore :=
  store (m (begin fs)).2.

(** ** A sample store: the scenario of spec section 8 *)

Definition u1 : DocumentData :=
  {[ "id" := JsString "u1"; "name" := JsString "Ada";
     "screenName" := JsString "ada"; "statusesCount" := JsNumber 2 ]}.

Definition t1 : DocumentData :=
  {[ "id" := JsString "t1"; "text" := JsString "first";
     "userId" := JsString "u1"; "likes" := JsNumber 3 ]}.

Definition t2 : DocumentData :=
  {[ "id" := JsString "t2"; "text" := JsString "second";
     "userId" := JsString "u1"; "likes" := JsNumber 0 ]}.

Definition t3 : DocumentData :=
  {[ "id" := JsString "t3"; "text" := JsString "third";
     "userId" := JsString "u2"; "likes" := JsNumber 1 ]}.

Definition sample_documents : list (string * DocumentData) :=
  [("tweets/t1", t1); ("users/u1", u1); ("tweets/t2", t2); ("tweets/t3", t3)].

(** Every call is answered. *)
Definition online : StoreCall -> option JsError := fun _ => None.

(** Every call fails with [e]. *)
Definition offline (e : JsError) : StoreCall -> option JsError := fun _ => Some e.

Definition sample : Firestore := mkFirestore sample_documents online.

Definition unavailable : JsError := Error "UNAVAILABLE".

Definition sample_offline : Firestore := mkFirestore sample_documents (offline unavailable).

(** A store with a user and no tweet. *)
Definition no_tweets : Firestore := mkFirestore [("users/u1", u1)] online.

(** The refusal of a client that checks its argument: the Firestore client
    refuses [users/], a path that names a collection and not a document. *)
Definition not_a_document : JsError :=
  Error "Argument documentPath must point to a document, but was users/".

Definition refuses_collection_path : StoreCall -> option JsError :=
  fun call =>
    match call with
    | DocGet path => if decide (path = "users/") then Some not_a_document else None
    | _ => None
    end.

Definition sample_strict : Firestore := mkFirestore sample_documents refuses_collection_path.

(** A partial outage: the client fails the filtered queries and answers
    every other call. *)
Definition queries_down : StoreCall -> option JsError :=
  fun call =>
    match call with
    | WhereGet _ _ _ => Some unavailable
    | _ => None
    end.

Definition sample_queries_down : Firestore := mkFirestore sample_documents queries_down.

(** ** Derived notions used by the statements *)

(** The user document stored under key [key]: the document at [users/key]. *)
Definition user_document (fs : Firestore) (key : string) : option DocumentData :=
  find_document (documents fs) ("users/" +:+ key).

(** The tweet documents of the store, in the order the store yields them. *)
Definition tweets_of (fs : Firestore) : list DocumentData :=
  (scan fs "tweets").*2.

(** The key [Tweets.user] looks up for a parent tweet. *)
Definition author_key (tweet : DocumentData) : string :=
  template_string (get_field tweet "userId").

(** The store call each resolver issues. *)
Definition user_tweets_call (user : DocumentData) : StoreCall :=
  WhereGet "tweets" "userId" (get_field user "id").

Definition tweet_user_call (tweet : DocumentData) : StoreCall :=
  DocGet ("users/" +:+ author_key tweet).

Definition query_tweets_call : StoreCall := CollectionGet "tweets".

Definition query_user_call (id : string) : StoreCall := DocGet ("users/" +:+ id).


(** The value [Query.user] builds when the lookup finds nothing. *)
Definition user_id_not_found : Value := VError (ValidationError "User ID not found").

(** [t.userId == u] for a string [u]. *)
Definition authored_by (u : string) (t : DocumentData) : Prop :=
  get_field t "userId" = JsString u.

#[global] Instance authored_by_dec u t : Decision (authored_by u t).
Proof. unfold authored_by. apply _. Defined.

(** The calls that change the store. *)
Definition is_write (call : StoreCall) : bool :=
  match call with
  | DocSet _ _ => true
  | _ => false
  end.

(** The outcome of running a resolver again, right after a first run. *)
Definition second_outcome (m : Async Value) (fs : Firestore) : Promise :=
  settle (m (m (begin fs)).2).1.

(** A computation that leaves the store as it found it. *)
Definition read_only {A} (m : Async A) : Prop :=
  forall σ, store (m σ).2 = store σ.

(** A computation whose completion and final store depend on the store it
    starts from only, not on the calls issued before. *)
Definition history_independent {A} (m : Async A) : Prop :=
  forall σ1 σ2, store σ1 = store σ2 ->
    (m σ1).1 = (m σ2).1 /\ store (m σ1).2 = store (m σ2).2.

(** ** The schema and the resolver map (src/index.ts, lines 26-49 and 51-100) *)

(** A GraphQL type reference: [Name], [[T]] or [T!]. *)
Inductive GraphQLType : Type :=
  | NamedType (name : string)
  | ListType (ofType : GraphQLType)
  | NonNullType (ofType : GraphQLType).

(** The type a reference names, under its list and non-null wrappers. *)
Fixpoint named_type (t : GraphQLType) : string :=
  match t with
  | NamedType name => name
  | ListType t' => named_type t'
  | NonNullType t' => named_type t'
  end.

Record FieldDefinition : Type := mkField {
  field_name : string;
  field_arguments : list (string * GraphQLType);
  field_type : GraphQLType
}.

(** [obj[key]] on an object literal: the first entry under [key]. *)
Fixpoint entry {A : Type} (key : string) (l : list (string * A)) : option A :=
  match l with
  | [] => None
  | (k, a) :: rest => if decide (k = key) then Some a else entry key rest
  end.

(** [const typeDefs = gql`...`]: the object types of the schema, with their
    fields in the order of the source. *)
Definition typeDefs : list (string * list FieldDefinition) :=
  [ ("User",
     [ mkField "id" [] (NonNullType (NamedType "ID"));
       mkField "name" [] (NonNullType (NamedType "String"));
       mkField "screenName" [] (NonNullType (NamedType "String"));
       mkField "statusesCount" [] (NonNullType (NamedType "Int"));
       mkField "tweets" [] (NonNullType (ListType (NamedType "Tweets"))) ]);
    ("Tweets",
     [ mkField "id" [] (NonNullType (NamedType "ID"));
       mkField "text" [] (NonNullType (NamedType "String"));
       mkField "userId" [] (NonNullType (NamedType "String"));
       mkField "user" [] (NonNullType (NamedType "User"));
       mkField "likes" [] (NonNullType (NamedType "Int")) ]);
    ("Query",
     [ mkField "tweets" [] (ListType (NamedType "Tweets"));
       mkField "user" [("id", NonNullType (NamedType "String"))] (NamedType "User") ]) ].

(** The definition of field [fieldName] of type [typeName], if declared. *)
Definition declared_field (typeName fieldName : string) : option FieldDefinition :=
  match entry typeName typeDefs with
  | Some fields => List.find (fun fd => bool_decide (field_name fd = fieldName)) fields
  | None => None
  end.

(** Whether [name] is one of the schema's own object types. *)
Definition is_object_type (name : string) : bool :=
  bool_decide (is_Some (entry name typeDefs)).

(** A resolver as the executor calls it: [(parent, args)]. *)
Definition Resolver : Type := DocumentData -> DocumentData -> Async Value.

(** [const resolvers = { User: {...}, Tweets: {...}, Query: {...} }].
    [Query.user] reads [args.id] and splices it into the document path. *)
Definition resolvers : list (string * list (string * Resolver)) :=
  [ ("User", [ ("tweets", fun user _ => User.tweets user) ]);
    ("Tweets", [ ("user", fun tweet _ => Tweets.user tweet) ]);
    ("Query", [ ("tweets", fun _ _ => Query.tweets);
                ("user", fun _ args => Query.user (template_string (get_field args "id"))) ]) ].

(** [resolvers[typeName][fieldName]] *)
Definition resolver_of (typeName fieldName : string) : option Resolver :=
  match entry typeName resolvers with
  | Some fields => entry fieldName fields
  | None => None
  end.

(** A run of one of the map's resolvers on some parent and arguments. *)
Definition resolution (m : Async Value) : Prop :=
  exists typeName fieldName r parent args,
    resolver_of typeName fieldName = Some r /\ m = r parent args.

(** Several runs in one session, one after the other; each promise settles
    on its own, whatever the others do. *)
Fixpoint run_each (ms : list (Async Value)) (σ : Session) : list Promise * Session :=
  match ms with
  | [] => ([], σ)
  | m :: rest =>
      let r := m σ in
      let rs := run_each rest r.2 in
      (settle r.1 :: rs.1, rs.2)
  end.

(** More sample objects: a parent user that is not stored, and a tweet with
    no [userId]. *)
Definition u2 : DocumentData :=
  {[ "id" := JsString "u2"; "name" := JsString "Bob";
     "screenName" := JsString "bob"; "statusesCount" := JsNumber 1 ]}.

Definition orphan : DocumentData :=
  {[ "id" := JsString "t9"; "text" := JsString "lost"; "likes" := JsNumber 0 ]}.

(** ** The scenario of spec section 8, evaluated *)

Example scenario_tweets_of_u1 :
  outcome (User.tweets u1) sample = Fulfilled (VArray [t1; t2]).
Proof. vm_compute. reflexivity. Qed.

Example scenario_author_of_t3 :
  outcome (Tweets.user t3) sample = Fulfilled VUndefined.
Proof. vm_compute. reflexivity. Qed.

Example scenario_author_of_t1 :
  outcome (Tweets.user t1) sample = Fulfilled (VObject u1).
Proof. vm_compute. reflexivity. Qed.

Example scenario_all_tweets :
  outcome Query.tweets sample = Fulfilled (VArray [t1; t2; t3]).
Proof. vm_compute. reflexivity. Qed.

Example scenario_missing_user :
  outcome (Query.user "missing") sample
  = Fulfilled (VError (ValidationError "User ID not found")).
Proof. vm_compute. reflexivity. Qed.

Example scenario_offline_tweets :
  outcome Query.tweets sample_offline = Rejected unavailable.
Proof. vm_compute. reflexivity. Qed.

Example scenario_offline_user :
  outcome (Query.user "u1") sample_offline = Rejected (ApolloError unavailable).
Proof. vm_compute. reflexivity. Qed.

(** ** The monad's combinators *)

Section Combinators.
Context {A B : Type}.

Lemma read_only_ret (a : A) : read_only (ret a).
Proof. intros σ. reflexivity. Qed.

Lemma read_only_throw (e : JsError) : read_only (@throw A e).
Proof. intros σ. reflexivity. Qed.

Lemma read_only_read (call : StoreCall) (answer : Firestore -> A) :
  read_only (read call answer).
Proof. intros σ. unfold read. destruct (fault (store σ) call); reflexivity. Qed.

Lemma read_only_bind (m : Async A) (k : A -> Async B) :
  read_only m -> (forall a, read_only (k a)) -> read_only (bind m k).
Proof.
  intros Hm Hk σ. unfold bind. specialize (Hm σ).
  destruct (m σ) as [[a | e] σ']; simpl in *.
  - rewrite Hk. exact Hm.
  - exact Hm.
Qed.

Lemma read_only_try_catch (body : Async A) (handler : JsError -> Async A) :
  read_only body -> (forall e, read_only (handler e)) -> read_only (try_catch body handler).
Proof.
  intros Hb Hh σ. unfold try_catch. specialize (Hb σ).
  destruct (body σ) as [[a | e] σ']; simpl in *.
  - exact Hb.
  - rewrite Hh. exact Hb.
Qed.

Lemma history_independent_ret (a : A) : history_independent (ret a).
Proof. intros σ1 σ2 Hs. split; [reflexivity | exact Hs]. Qed.

Lemma history_independent_throw (e : JsError) : history_independent (@throw A e).
Proof. intros σ1 σ2 Hs. split; [reflexivity | exact Hs]. Qed.

Lemma history_independent_read (call : StoreCall) (answer : Firestore -> A) :
  history_independent (read call answer).
Proof.
  intros σ1 σ2 Hs. unfold read. rewrite <- Hs.
  destruct (fault (store σ1) call); split; simpl; auto.
Qed.

Lemma history_independent_bind (m : Async A) (k : A -> Async B) :
  history_independent m -> (forall a, history_independent (k a)) ->
  history_independent (bind m k).
Proof.
  intros Hm Hk σ1 σ2 Hs. unfold bind. destruct (Hm σ1 σ2 Hs) as [Hc Hst].
  destruct (m σ1) as [c1 σ1'], (m σ2) as [c2 σ2']; simpl in *; subst c2.
  destruct c1 as [a | e].
  - apply Hk, Hst.
  - split; [reflexivity | exact Hst].
Qed.

Lemma history_independent_try_catch (body : Async A) (handler : JsError -> Async A) :
  history_independent body -> (forall e, history_independent (handler e)) ->
  history_independent (try_catch body handler).
Proof.
  intros Hb Hh σ1 σ2 Hs. unfold try_catch. destruct (Hb σ1 σ2 Hs) as [Hc Hst].
  destruct (body σ1) as [c1 σ1'], (body σ2) as [c2 σ2']; simpl in *; subst c2.
  destruct c1 as [a | e].
  - split; [reflexivity | exact Hst].
  - apply Hh, Hst.
Qed.
End Combinators.

Create HintDb async.
#[global] Hint Resolve read_only_ret read_only_throw read_only_read
  read_only_bind read_only_try_catch : async.
#[global] Hint Resolve history_independent_ret history_independent_throw
  history_independent_read history_independent_bind
  history_independent_try_catch : async.

(** A write is not read-only: the frame property below is a property of the
    resolvers, not of the client. *)
Example doc_set_writes :
  store (doc_set "users/u2" u1 (begin sample)).2 <> sample.
Proof. vm_compute. intros H. discriminate H. Qed.

(** ** The resolvers, unfolded on an arbitrary session *)

Ltac run_resolver :=
  unfold User.tweets, Tweets.user, Query.tweets, Query.user,
    collection_where_get, collection_get, doc_get, try_catch, bind, read, ret, throw;
  simpl.

Lemma User_tweets_run (user : DocumentData) (σ : Session) :
  User.tweets user σ =
  (match fault (store σ) (user_tweets_call user) with
   | Some e => Thrown (ApolloError e)
   | None => Normal (VArray ((scan_where (store σ) "tweets" "userId" (get_field user "id")).*2))
   end, logged σ (user_tweets_call user)).
Proof.
  run_resolver. unfold user_tweets_call.
  destruct (fault _ _); [reflexivity |].
  unfold query_snapshot; simpl. rewrite <- list_fmap_compose. reflexivity.
Qed.

Lemma Tweets_user_run (tweet : DocumentData) (σ : Session) :
  Tweets.user tweet σ =
  (match fault (store σ) (tweet_user_call tweet) with
   | Some e => Thrown (ApolloError e)
   | None => Normal (match user_document (store σ) (author_key tweet) with
                     | Some d => VObject d
                     | None => VUndefined
                     end)
   end, logged σ (tweet_user_call tweet)).
Proof.
  run_resolver. unfold tweet_user_call, author_key.
  destruct (fault _ _); reflexivity.
Qed.

Lemma Query_tweets_run (σ : Session) :
  Query.tweets σ =
  (match fault (store σ) query_tweets_call with
   | Some e => Thrown e
   | None => Normal (VArray (tweets_of (store σ)))
   end, logged σ query_tweets_call).
Proof.
  run_resolver. unfold query_tweets_call, tweets_of.
  destruct (fault _ _); [reflexivity |].
  unfold query_snapshot; simpl. rewrite <- list_fmap_compose. reflexivity.
Qed.

Lemma Query_user_run (id : string) (σ : Session) :
  Query.user id σ =
  (match fault (store σ) (query_user_call id) with
   | Some e => Thrown (ApolloError e)
   | None => Normal (match user_document (store σ) id with
                     | Some d => VObject d
                     | None => user_id_not_found
                     end)
   end, logged σ (query_user_call id)).
Proof.
  run_resolver. unfold query_user_call, user_document, data.
  destruct (fault _ _); [reflexivity |]. simpl.
  destruct (find_document _ _); reflexivity.
Qed.

(** ** Facts about the store model *)

Lemma get_field_string (t : DocumentData) (key s : string) :
  get_field t key = JsString s <-> field_equals key (JsString s) t.
Proof.
  unfold get_field, field_equals. destruct (t !! key) as [v |]; simpl.
  - split; congruence.
  - split; discriminate.
Qed.

Lemma scan_where_data (fs : Firestore) (c f : string) (v : JsValue) :
  (scan_where fs c f v).*2 = filter (field_equals f v) ((scan fs c).*2).
Proof.
  unfold scan_where. induction (scan fs c) as [| [p d] l IH]; [reflexivity |].
  rewrite fmap_cons, !filter_cons. cbn [snd].
  destruct (decide (field_equals f v d)).
  - rewrite fmap_cons. cbn [snd]. f_equal. exact IH.
  - exact IH.
Qed.

Lemma tweets_where_user (fs : Firestore) (u : string) :
  (scan_where fs "tweets" "userId" (JsString u)).*2
  = filter (authored_by u) (tweets_of fs).
Proof.
  rewrite scan_where_data. apply list_filter_iff.
  intros t. symmetry. apply get_field_string.
Qed.

Lemma tweets_of_Permutation (fs fs' : Firestore) :
  documents fs' ≡ₚ documents fs -> tweets_of fs' ≡ₚ tweets_of fs.
Proof. intros H. unfold tweets_of, scan. rewrite H. reflexivity. Qed.

(** ** User.tweets *)

(** C1. When the store answers, [User.tweets] for a parent user with id [u]
    is fulfilled with exactly the tweet documents whose [userId] is [u], as many
    times as the store holds them and in the store's order: a tweet is in the
    result iff it is in the store and has that [userId]; the result is the
    empty array, not a rejection, when no tweet matches; and a store holding
    the same documents in another order gives a permutation of the result. *)
Theorem User_tweets_exact (fs : Firestore) (user : DocumentData) (u : string) :
  get_field user "id" = JsString u ->
  fault fs (user_tweets_call user) = None ->
  outcome (User.tweets user) fs
    = Fulfilled (VArray (filter (authored_by u) (tweets_of fs)))
  /\ (forall t, t ∈ filter (authored_by u) (tweets_of fs)
                <-> t ∈ tweets_of fs /\ authored_by u t)
  /\ ((forall t, t ∈ tweets_of fs -> ~ authored_by u t) ->
      outcome (User.tweets user) fs = Fulfilled (VArray []))
  /\ (forall fs', documents fs' ≡ₚ documents fs ->
        fault fs' (user_tweets_call user) = None ->
        exists items',
          outcome (User.tweets user) fs' = Fulfilled (VArray items')
          /\ items' ≡ₚ filter (authored_by u) (tweets_of fs)).
Proof.
  intros Hid Hok.
  assert (Hrun : forall fs0, fault fs0 (user_tweets_call user) = None ->
            outcome (User.tweets user) fs0
            = Fulfilled (VArray (filter (authored_by u) (tweets_of fs0)))).
  { intros fs0 H0. unfold outcome. rewrite User_tweets_run. simpl.
    rewrite H0. simpl. rewrite Hid, tweets_where_user. reflexivity. }
  split; [apply Hrun, Hok |]. split; [| split].
  - intros t. rewrite list_elem_of_filter. tauto.
  - intros Hnone. rewrite (Hrun fs Hok). do 2 f_equal.
    induction (tweets_of fs) as [| t l IH]; [reflexivity |].
    rewrite filter_cons_False.
    + apply IH. intros t' Ht'. apply Hnone. right. exact Ht'.
    + apply Hnone. left.
  - intros fs' Hperm Hok'. eexists. split; [apply Hrun, Hok' |].
    rewrite (tweets_of_Permutation _ _ Hperm). reflexivity.
Qed.

Lemma User_tweets_exact_witness :
  get_field u1 "id" = JsString "u1"
  /\ fault sample (user_tweets_call u1) = None
  /\ outcome (User.tweets u1) sample
     = Fulfilled (VArray (filter (authored_by "u1") (tweets_of sample))).
Proof.
  split; [reflexivity |]. split; [reflexivity |].
  apply (User_tweets_exact sample u1 "u1"); reflexivity.
Defined.

(** ** Tweets.user *)

(** C3. When the store answers and no user document is stored under the
    tweet's [userId], [Tweets.user] is fulfilled with [undefined]: that
    outcome is no rejection, it differs from the outcome of the same run on
    any store that fails the call, and it carries no record at all; when a
    document is stored there, the run is fulfilled with that document. *)
Theorem Tweets_user_not_found (fs : Firestore) (tweet : DocumentData) :
  fault fs (tweet_user_call tweet) = None ->
  (user_document fs (author_key tweet) = None ->
     outcome (Tweets.user tweet) fs = Fulfilled VUndefined
     /\ (forall e, outcome (Tweets.user tweet) fs <> Rejected e)
     /\ (forall d, outcome (Tweets.user tweet) fs <> Fulfilled (VObject d))
     /\ (forall fs' e, fault fs' (tweet_user_call tweet) = Some e ->
           outcome (Tweets.user tweet) fs' <> outcome (Tweets.user tweet) fs))
  /\ (forall d, user_document fs (author_key tweet) = Some d ->
        outcome (Tweets.user tweet) fs = Fulfilled (VObject d)).
Proof.
  intros Hok.
  assert (Hrun : outcome (Tweets.user tweet) fs
                 = Fulfilled (match user_document fs (author_key tweet) with
                              | Some d => VObject d
                              | None => VUndefined
                              end)).
  { unfold outcome. rewrite Tweets_user_run. simpl. rewrite Hok. reflexivity. }
  split.
  - intros Hnone. rewrite Hrun, Hnone. repeat split; try discriminate.
    intros fs' e Hfail. unfold outcome. rewrite Tweets_user_run. simpl.
    rewrite Hfail. discriminate.
  - intros d Hsome. rewrite Hrun, Hsome. reflexivity.
Qed.

Lemma Tweets_user_not_found_witness :
  fault sample (tweet_user_call t3) = None
  /\ user_document sample (author_key t3) = None
  /\ outcome (Tweets.user t3) sample = Fulfilled VUndefined.
Proof.
  split; [reflexivity |]. split; [reflexivity |].
  apply (Tweets_user_not_found sample t3); reflexivity.
Defined.

(** C7. When the store answers and a user document is stored under the
    tweet's [userId], [Tweets.user] is fulfilled with an object that is that
    document's data: the same fields with the same values. *)
Theorem Tweets_user_unmodified (fs : Firestore) (tweet d : DocumentData) :
  fault fs (tweet_user_call tweet) = None ->
  user_document fs (author_key tweet) = Some d ->
  exists d', outcome (Tweets.user tweet) fs = Fulfilled (VObject d')
             /\ d' = d
             /\ forall key, get_field d' key = get_field d key.
Proof.
  intros Hok Hsome. exists d. split; [| split; reflexivity].
  unfold outcome. rewrite Tweets_user_run. simpl. rewrite Hok, Hsome. reflexivity.
Qed.

Lemma Tweets_user_unmodified_witness :
  fault sample (tweet_user_call t1) = None
  /\ user_document sample (author_key t1) = Some u1
  /\ exists d', outcome (Tweets.user t1) sample = Fulfilled (VObject d')
                /\ d' = u1
                /\ forall key, get_field d' key = get_field u1 key.
Proof.
  split; [reflexivity |]. split; [reflexivity |].
  apply (Tweets_user_unmodified sample t1 u1); reflexivity.
Defined.

(** ** Store failures *)

Lemma ApolloError_wraps (e : JsError) : ApolloError e <> e.
Proof. induction e; congruence. Qed.

(** C4. Resolver by resolver, whatever the store does with the other calls:
    when the store fails the call of [User.tweets], of [Tweets.user] or of
    [Query.user] with error [e], that resolver is rejected with
    [ApolloError e], not with [e] itself; when the store fails the call of
    [Query.tweets] with [e], [Query.tweets] is rejected with [e] itself, not
    with that wrapped form.  In each case the resolver issued its call once. *)
Theorem store_failure_surfaced (fs : Firestore) (user tweet : DocumentData)
    (id : string) :
  (forall e, fault fs (user_tweets_call user) = Some e ->
     outcome (User.tweets user) fs = Rejected (ApolloError e)
     /\ outcome (User.tweets user) fs <> Rejected e
     /\ calls (User.tweets user) fs = [user_tweets_call user])
  /\ (forall e, fault fs (tweet_user_call tweet) = Some e ->
        outcome (Tweets.user tweet) fs = Rejected (ApolloError e)
        /\ outcome (Tweets.user tweet) fs <> Rejected e
        /\ calls (Tweets.user tweet) fs = [tweet_user_call tweet])
  /\ (forall e, fault fs (query_user_call id) = Some e ->
        outcome (Query.user id) fs = Rejected (ApolloError e)
        /\ outcome (Query.user id) fs <> Rejected e
        /\ calls (Query.user id) fs = [query_user_call id])
  /\ (forall e, fault fs query_tweets_call = Some e ->
        outcome Query.tweets fs = Rejected e
        /\ outcome Query.tweets fs <> Rejected (ApolloError e)
        /\ calls Query.tweets fs = [query_tweets_call]).
Proof.
  unfold outcome, calls.
  rewrite User_tweets_run, Tweets_user_run, Query_user_run, Query_tweets_run.
  simpl.
  split; [| split; [| split]]; intros e ->; simpl;
    (split; [reflexivity |]); (split; [| reflexivity]);
    intros H; injection H as H.
  - exact (ApolloError_wraps e H).
  - exact (ApolloError_wraps e H).
  - exact (ApolloError_wraps e H).
  - exact (ApolloError_wraps e (eq_sym H)).
Qed.

Lemma store_failure_surfaced_witness :
  (fault sample_queries_down (user_tweets_call u1) = Some unavailable
   /\ fault sample_queries_down query_tweets_call = None
   /\ outcome (User.tweets u1) sample_queries_down = Rejected (ApolloError unavailable))
  /\ outcome (Tweets.user t1) sample_offline = Rejected (ApolloError unavailable)
  /\ outcome (Query.user "u1") sample_offline = Rejected (ApolloError unavailable)
  /\ outcome Query.tweets sample_offline = Rejected unavailable.
Proof.
  destruct (store_failure_surfaced sample_queries_down u1 t1 "u1") as [H1 _].
  destruct (store_failure_surfaced sample_offline u1 t1 "u1") as [_ [H2 [H3 H4]]].
  split; [split; [reflexivity | split; [reflexivity |]] |].
  - exact (proj1 (H1 unavailable eq_refl)).
  - split; [exact (proj1 (H2 unavailable eq_refl)) |].
    split; [exact (proj1 (H3 unavailable eq_refl)) |].
    exact (proj1 (H4 unavailable eq_refl)).
Defined.

(** ** Query.user *)



(** C5. When the store answers and no user document is stored under [id],
    [Query.user] is fulfilled with the not-found value: the promise is not
    rejected, with a store error or any other. *)
Theorem Query_user_not_found (fs : Firestore) (id : string) :
  fault fs (query_user_call id) = None ->
  user_document fs id = None ->
  outcome (Query.user id) fs = Fulfilled user_id_not_found
  /\ forall e, outcome (Query.user id) fs <> Rejected e.
Proof.
  intros Hok Hnone.
  assert (Hrun : outcome (Query.user id) fs = Fulfilled user_id_not_found).
  { unfold outcome. rewrite Query_user_run. simpl. rewrite Hok, Hnone. reflexivity. }
  split; [exact Hrun |]. intros e. rewrite Hrun. discriminate.
Qed.

Lemma Query_user_not_found_witness :
  fault sample (query_user_call "missing") = None
  /\ user_document sample "missing" = None
  /\ outcome (Query.user "missing") sample = Fulfilled user_id_not_found.
Proof.
  split; [reflexivity |]. split; [reflexivity |].
  apply (Query_user_not_found sample "missing"); reflexivity.
Defined.

(** C6. When the store answers, [Query.user] settles on the success channel
    whether or not a user was found: the body completes normally with a
    value, and that value is the user document when there is one and the
    [ValidationError] object, in the place of the user, when there is none. *)
Theorem Query_user_mixes_channels (fs : Firestore) (id : string) :
  fault fs (query_user_call id) = None ->
  exists v, (Query.user id (begin fs)).1 = Normal v
            /\ outcome (Query.user id) fs = Fulfilled v
            /\ (user_document fs id = None ->
                v = VError (ValidationError "User ID not found"))
            /\ (forall d, user_document fs id = Some d -> v = VObject d).
Proof.
  intros Hok. unfold outcome. rewrite Query_user_run. simpl. rewrite Hok.
  eexists. split; [reflexivity |]. split; [reflexivity |].
  split.
  - intros ->. reflexivity.
  - intros d ->. reflexivity.
Qed.

Lemma Query_user_mixes_channels_witness :
  fault sample (query_user_call "missing") = None
  /\ exists v, (Query.user "missing" (begin sample)).1 = Normal v
               /\ outcome (Query.user "missing") sample = Fulfilled v
               /\ (user_document sample "missing" = None ->
                   v = VError (ValidationError "User ID not found"))
               /\ (forall d, user_document sample "missing" = Some d -> v = VObject d).
Proof.
  split; [reflexivity |].
  apply (Query_user_mixes_channels sample "missing"). reflexivity.
Defined.

(** ** Query.tweets *)

(** C8. When the store answers and the tweets collection is empty,
    [Query.tweets] is fulfilled with the empty array. *)
Theorem Query_tweets_empty (fs : Firestore) :
  fault fs query_tweets_call = None ->
  scan fs "tweets" = [] ->
  outcome Query.tweets fs = Fulfilled (VArray []).
Proof.
  intros Hok Hempty. unfold outcome. rewrite Query_tweets_run. simpl.
  rewrite Hok. unfold tweets_of. rewrite Hempty. reflexivity.
Qed.

Lemma Query_tweets_empty_witness :
  fault no_tweets query_tweets_call = None
  /\ scan no_tweets "tweets" = []
  /\ outcome Query.tweets no_tweets = Fulfilled (VArray []).
Proof.
  split; [reflexivity |]. split; [reflexivity |].
  apply (Query_tweets_empty no_tweets); reflexivity.
Defined.

(** ** Frame and determinism *)

Lemma User_tweets_read_only (user : DocumentData) : read_only (User.tweets user).
Proof. unfold User.tweets, collection_where_get. auto with async. Qed.

Lemma Tweets_user_read_only (tweet : DocumentData) : read_only (Tweets.user tweet).
Proof. unfold Tweets.user, doc_get. auto with async. Qed.

Lemma Query_tweets_read_only : read_only Query.tweets.
Proof. unfold Query.tweets, collection_get. auto with async. Qed.

Lemma Query_user_read_only (id : string) : read_only (Query.user id).
Proof. unfold Query.user, doc_get. auto with async. Qed.

Lemma User_tweets_history_independent (user : DocumentData) :
  history_independent (User.tweets user).
Proof. unfold User.tweets, collection_where_get. auto with async. Qed.

Lemma Tweets_user_history_independent (tweet : DocumentData) :
  history_independent (Tweets.user tweet).
Proof. unfold Tweets.user, doc_get. auto with async. Qed.

Lemma Query_tweets_history_independent : history_independent Query.tweets.
Proof. unfold Query.tweets, collection_get. auto with async. Qed.

Lemma Query_user_history_independent (id : string) :
  history_independent (Query.user id).
Proof. unfold Query.user, doc_get. auto with async. Qed.

Lemma rerun_same_outcome (m : Async Value) (fs : Firestore) :
  read_only m -> history_independent m -> second_outcome m fs = outcome m fs.
Proof.
  intros Hro Hhi. unfold second_outcome, outcome. f_equal.
  apply Hhi. apply Hro.
Qed.

Lemma any_session_same_outcome (m : Async Value) (σ : Session) :
  history_independent m -> settle (m σ).1 = outcome m (store σ).
Proof. intros Hhi. unfold outcome. f_equal. apply Hhi. reflexivity. Qed.

(** C9. Every resolver is read-only: none of the calls it issues is a write,
    and the store after a run is the store before it. *)
Theorem resolvers_leave_store (fs : Firestore) (user tweet : DocumentData) (id : string) :
  (store_after Query.tweets fs = fs
   /\ store_after (User.tweets user) fs = fs
   /\ store_after (Tweets.user tweet) fs = fs
   /\ store_after (Query.user id) fs = fs)
  /\ (existsb is_write (calls Query.tweets fs) = false
      /\ existsb is_write (calls (User.tweets user) fs) = false
      /\ existsb is_write (calls (Tweets.user tweet) fs) = false
      /\ existsb is_write (calls (Query.user id) fs) = false).
Proof.
  split.
  - unfold store_after. repeat split.
    + apply Query_tweets_read_only.
    + apply User_tweets_read_only.
    + apply Tweets_user_read_only.
    + apply Query_user_read_only.
  - unfold calls.
    rewrite Query_tweets_run, User_tweets_run, Tweets_user_run, Query_user_run.
    repeat split.
Qed.

Lemma scan_same_documents (fs fs' : Firestore) (c : string) :
  documents fs = documents fs' -> scan fs c = scan fs' c.
Proof. intros H. unfold scan. rewrite H. reflexivity. Qed.

Lemma scan_where_same_documents (fs fs' : Firestore) (c f : string) (v : JsValue) :
  documents fs = documents fs' -> scan_where fs c f v = scan_where fs' c f v.
Proof. intros H. unfold scan_where. rewrite (scan_same_documents fs fs' c H). reflexivity. Qed.

Lemma user_document_same_documents (fs fs' : Firestore) (key : string) :
  documents fs = documents fs' -> user_document fs key = user_document fs' key.
Proof. intros H. unfold user_document. rewrite H. reflexivity. Qed.

(** C10, as the code has it.  The result of a resolver is determined by its
    argument, the documents of the store and what the client does with the
    one call the resolver issues: two runs of a resolver with the same
    argument, on stores that hold the same documents and fail or answer
    that call alike, settle alike, whatever the stores do with other calls
    and whatever calls were issued before either run. *)
Theorem resolvers_deterministic (fs fs' : Firestore) (user tweet : DocumentData)
    (id : string) :
  documents fs = documents fs' ->
  (fault fs query_tweets_call = fault fs' query_tweets_call ->
   forall h h', settle (Query.tweets (mkSession fs h)).1
                = settle (Query.tweets (mkSession fs' h')).1)
  /\ (fault fs (query_user_call id) = fault fs' (query_user_call id) ->
      forall h h', settle (Query.user id (mkSession fs h)).1
                   = settle (Query.user id (mkSession fs' h')).1)
  /\ (fault fs (user_tweets_call user) = fault fs' (user_tweets_call user) ->
      forall h h', settle (User.tweets user (mkSession fs h)).1
                   = settle (User.tweets user (mkSession fs' h')).1)
  /\ (fault fs (tweet_user_call tweet) = fault fs' (tweet_user_call tweet) ->
      forall h h', settle (Tweets.user tweet (mkSession fs h)).1
                   = settle (Tweets.user tweet (mkSession fs' h')).1).
Proof.
  intros Hdocs.
  split; [| split; [| split]]; intros Hfault h h'.
  - rewrite !Query_tweets_run. simpl. rewrite Hfault.
    unfold tweets_of. rewrite (scan_same_documents fs fs' _ Hdocs). reflexivity.
  - rewrite !Query_user_run. simpl. rewrite Hfault.
    rewrite (user_document_same_documents fs fs' _ Hdocs). reflexivity.
  - rewrite !User_tweets_run. simpl. rewrite Hfault.
    rewrite (scan_where_same_documents fs fs' _ _ _ Hdocs). reflexivity.
  - rewrite !Tweets_user_run. simpl. rewrite Hfault.
    rewrite (user_document_same_documents fs fs' _ Hdocs). reflexivity.
Qed.

Lemma resolvers_deterministic_witness :
  documents sample = documents sample_strict
  /\ outcome Query.tweets sample = outcome Query.tweets sample_strict
  /\ outcome (Query.user "u1") sample = outcome (Query.user "u1") sample_strict
  /\ outcome (User.tweets u1) sample = outcome (User.tweets u1) sample_strict
  /\ outcome (Tweets.user t1) sample = outcome (Tweets.user t1) sample_strict.
Proof.
  destruct (resolvers_deterministic sample sample_strict u1 t1 "u1" eq_refl)
    as [H1 [H2 [H3 H4]]].
  split; [reflexivity |].
  split; [exact (H1 eq_refl [] []) |].
  split; [exact (H2 eq_refl [] []) |].
  split; [exact (H3 eq_refl [] []) | exact (H4 eq_refl [] [])].
Defined.

(** C10, as the specification states it, fails: the documents and the
    argument alone do not fix the result.  Two stores that hold the same
    documents give different outcomes when one of them fails the call. *)
Lemma same_documents_different_outcomes :
  documents sample = documents sample_offline
  /\ outcome Query.tweets sample <> outcome Query.tweets sample_offline
  /\ outcome (Query.user "u1") sample <> outcome (Query.user "u1") sample_offline
  /\ outcome (User.tweets u1) sample <> outcome (User.tweets u1) sample_offline
  /\ outcome (Tweets.user t1) sample <> outcome (Tweets.user t1) sample_offline.
Proof.
  split; [reflexivity |].
  unfold outcome.
  rewrite !Query_tweets_run, !Query_user_run, !User_tweets_run, !Tweets_user_run.
  simpl. repeat split; discriminate.
Qed.

(** ** Outcomes of the four resolvers, in closed form *)

Lemma User_tweets_outcome (fs : Firestore) (user : DocumentData) :
  outcome (User.tweets user) fs =
  match fault fs (user_tweets_call user) with
  | Some e => Rejected (ApolloError e)
  | None => Fulfilled (VArray ((scan_where fs "tweets" "userId" (get_field user "id")).*2))
  end.
Proof.
  unfold outcome. rewrite User_tweets_run. simpl.
  destruct (fault fs _); reflexivity.
Qed.

Lemma Tweets_user_outcome (fs : Firestore) (tweet : DocumentData) :
  outcome (Tweets.user tweet) fs =
  match fault fs (tweet_user_call tweet) with
  | Some e => Rejected (ApolloError e)
  | None => Fulfilled (match user_document fs (author_key tweet) with
                       | Some d => VObject d
                       | None => VUndefined
                       end)
  end.
Proof.
  unfold outcome. rewrite Tweets_user_run. simpl.
  destruct (fault fs _); reflexivity.
Qed.

Lemma Query_tweets_outcome (fs : Firestore) :
  outcome Query.tweets fs =
  match fault fs query_tweets_call with
  | Some e => Rejected e
  | None => Fulfilled (VArray (tweets_of fs))
  end.
Proof.
  unfold outcome. rewrite Query_tweets_run. simpl.
  destruct (fault fs _); reflexivity.
Qed.

Lemma Query_user_outcome (fs : Firestore) (id : string) :
  outcome (Query.user id) fs =
  match fault fs (query_user_call id) with
  | Some e => Rejected (ApolloError e)
  | None => Fulfilled (match user_document fs id with
                       | Some d => VObject d
                       | None => user_id_not_found
                       end)
  end.
Proof.
  unfold outcome. rewrite Query_user_run. simpl.
  destruct (fault fs _); reflexivity.
Qed.

Lemma User_tweets_of_id (fs : Firestore) (user : DocumentData) (u : string) :
  get_field user "id" = JsString u ->
  fault fs (user_tweets_call user) = None ->
  outcome (User.tweets user) fs
  = Fulfilled (VArray (filter (authored_by u) (tweets_of fs))).
Proof.
  intros Hid Hok. rewrite User_tweets_outcome, Hok, Hid, tweets_where_user.
  reflexivity.
Qed.

Lemma author_key_of (t : DocumentData) (k : string) :
  authored_by k t -> author_key t = k.
Proof. unfold authored_by, author_key. intros ->. reflexivity. Qed.

(** ** When a resolver is rejected, and what it is fulfilled with *)

(** X1. A resolver is rejected only when the store fails its call: the three
    resolvers with a [try]/[catch] are rejected with [e] exactly when the
    client failed the call with some [cause] and [e] is [ApolloError cause];
    [Query.tweets] is rejected with [e] exactly when the client failed the
    call with [e]. *)
Theorem rejected_only_on_store_failure (fs : Firestore) (user tweet : DocumentData)
    (id : string) (e : JsError) :
  (outcome (User.tweets user) fs = Rejected e
   <-> exists cause, fault fs (user_tweets_call user) = Some cause /\ e = ApolloError cause)
  /\ (outcome (Tweets.user tweet) fs = Rejected e
      <-> exists cause, fault fs (tweet_user_call tweet) = Some cause /\ e = ApolloError cause)
  /\ (outcome (Query.user id) fs = Rejected e
      <-> exists cause, fault fs (query_user_call id) = Some cause /\ e = ApolloError cause)
  /\ (outcome Query.tweets fs = Rejected e <-> fault fs query_tweets_call = Some e).
Proof.
  rewrite User_tweets_outcome, Tweets_user_outcome, Query_user_outcome,
    Query_tweets_outcome.
  repeat split;
    try (destruct (fault fs _) as [c |]; [| discriminate];
         intros H; injection H as <-; eauto; fail);
    try (intros [cause [-> ->]]; reflexivity).
Qed.

(** X2. What a fulfilled resolver carries.  [User.tweets] and [Query.tweets]
    carry an array.  [Tweets.user] carries a document or [undefined], and
    [undefined] exactly when the store answered and holds no document for
    the tweet's [userId].  [Query.user] never carries [undefined]: its value
    is truthy, a document or the [ValidationError] object. *)
Theorem fulfilled_values (fs : Firestore) (user tweet : DocumentData) (id : string) :
  (forall v, outcome (User.tweets user) fs = Fulfilled v -> exists items, v = VArray items)
  /\ (forall v, outcome Query.tweets fs = Fulfilled v -> exists items, v = VArray items)
  /\ (forall v, outcome (Tweets.user tweet) fs = Fulfilled v ->
        v = VUndefined \/ exists d, v = VObject d)
  /\ (outcome (Tweets.user tweet) fs = Fulfilled VUndefined
      <-> fault fs (tweet_user_call tweet) = None
          /\ user_document fs (author_key tweet) = None)
  /\ (forall v, outcome (Query.user id) fs = Fulfilled v ->
        truthy v = true /\ (v = user_id_not_found \/ exists d, v = VObject d))
  /\ outcome (Query.user id) fs <> Fulfilled VUndefined.
Proof.
  rewrite User_tweets_outcome, Tweets_user_outcome, Query_user_outcome,
    Query_tweets_outcome.
  split; [| split; [| split; [| split; [| split]]]].
  - destruct (fault fs _); [discriminate |]. intros v H; injection H as <-. eauto.
  - destruct (fault fs _); [discriminate |]. intros v H; injection H as <-. eauto.
  - destruct (fault fs _); [discriminate |]. intros v H; injection H as <-.
    destruct (user_document fs _); eauto.
  - destruct (fault fs _).
    + split; [discriminate | intros [H _]; discriminate H].
    + destruct (user_document fs _).
      * split; [discriminate | intros [_ H]; discriminate H].
      * split; [intros _; split; reflexivity | reflexivity].
  - destruct (fault fs _); [discriminate |]. intros v H; injection H as <-.
    destruct (user_document fs _); split; eauto.
  - destruct (fault fs _); [discriminate |].
    destruct (user_document fs _); discriminate.
Qed.

(** ** Query.tweets and User.tweets *)

(** X3. When the store answers, [Query.tweets] is fulfilled with the data of
    every document that lies directly in the [tweets] collection, one item per
    document and in the store's order: an object is in the result iff some
    document of that collection holds it. *)
Theorem Query_tweets_all (fs : Firestore) :
  fault fs query_tweets_call = None ->
  exists items,
    outcome Query.tweets fs = Fulfilled (VArray items)
    /\ items = (scan fs "tweets").*2
    /\ length items = length (scan fs "tweets")
    /\ forall t, t ∈ items
         <-> exists path, (path, t) ∈ documents fs /\ is_Some (document_id "tweets" path).
Proof.
  intros Hok. exists (tweets_of fs). rewrite Query_tweets_outcome, Hok.
  split; [reflexivity |]. split; [reflexivity |]. split.
  - unfold tweets_of. apply length_fmap.
  - intros t. unfold tweets_of, scan. rewrite list_elem_of_fmap. split.
    + intros [[path d] [-> Hin]]. apply list_elem_of_filter in Hin as [Hcol Hin].
      exists path. split; assumption.
    + intros [path [Hin Hcol]]. exists (path, t). split; [reflexivity |].
      apply list_elem_of_filter. split; assumption.
Qed.

Lemma Query_tweets_all_witness :
  fault sample query_tweets_call = None
  /\ exists items, outcome Query.tweets sample = Fulfilled (VArray items)
                   /\ length items = 3.
Proof.
  split; [reflexivity |].
  destruct (Query_tweets_all sample eq_refl) as [items [Hout [_ [Hlen _]]]].
  exists items. split; [exact Hout |]. rewrite Hlen. reflexivity.
Defined.

(** X4. When the store answers both calls, what [User.tweets] gives for a
    user is a sublist of what [Query.tweets] gives: the same objects, in the
    same relative order, and no more of them. *)
Theorem User_tweets_within_Query_tweets (fs : Firestore) (user : DocumentData)
    (u : string) :
  get_field user "id" = JsString u ->
  fault fs (user_tweets_call user) = None ->
  fault fs query_tweets_call = None ->
  exists mine all,
    outcome (User.tweets user) fs = Fulfilled (VArray mine)
    /\ outcome Query.tweets fs = Fulfilled (VArray all)
    /\ mine `sublist_of` all
    /\ length mine <= length all.
Proof.
  intros Hid Hok Hall.
  exists (filter (authored_by u) (tweets_of fs)), (tweets_of fs).
  split; [apply User_tweets_of_id; assumption |].
  split; [rewrite Query_tweets_outcome, Hall; reflexivity |].
  split; [apply sublist_filter | apply length_filter].
Qed.

Lemma User_tweets_within_Query_tweets_witness :
  get_field u1 "id" = JsString "u1"
  /\ fault sample (user_tweets_call u1) = None
  /\ fault sample query_tweets_call = None
  /\ exists mine all,
       outcome (User.tweets u1) sample = Fulfilled (VArray mine)
       /\ outcome Query.tweets sample = Fulfilled (VArray all)
       /\ mine `sublist_of` all
       /\ length mine <= length all.
Proof.
  split; [reflexivity |]. split; [reflexivity |]. split; [reflexivity |].
  apply (User_tweets_within_Query_tweets sample u1 "u1"); reflexivity.
Defined.

(** X5. No tweet is served under two users: when the store answers, the
    results of [User.tweets] for two users with different ids share no
    object. *)
Theorem User_tweets_disjoint (fs : Firestore) (user user' : DocumentData)
    (u u' : string) :
  u <> u' ->
  get_field user "id" = JsString u ->
  get_field user' "id" = JsString u' ->
  fault fs (user_tweets_call user) = None ->
  fault fs (user_tweets_call user') = None ->
  exists items items',
    outcome (User.tweets user) fs = Fulfilled (VArray items)
    /\ outcome (User.tweets user') fs = Fulfilled (VArray items')
    /\ forall t, t ∈ items -> t ∉ items'.
Proof.
  intros Hne Hid Hid' Hok Hok'.
  exists (filter (authored_by u) (tweets_of fs)), (filter (authored_by u') (tweets_of fs)).
  split; [apply User_tweets_of_id; assumption |].
  split; [apply User_tweets_of_id; assumption |].
  intros t Ht Ht'.
  apply list_elem_of_filter in Ht as [Hu _].
  apply list_elem_of_filter in Ht' as [Hu' _].
  unfold authored_by in *. congruence.
Qed.

Lemma User_tweets_disjoint_witness :
  exists items items',
    outcome (User.tweets u1) sample = Fulfilled (VArray items)
    /\ outcome (User.tweets u2) sample = Fulfilled (VArray items')
    /\ forall t, t ∈ items -> t ∉ items'.
Proof.
  apply (User_tweets_disjoint sample u1 u2 "u1" "u2");
    [discriminate | reflexivity | reflexivity | reflexivity | reflexivity].
Defined.

(** ** Tweets.user and Query.user side by side *)

(** X6. [Tweets.user] on a tweet and [Query.user] on that tweet's [userId]
    issue the same store call, and settle alike except when the store answers
    and holds no such user: there [Tweets.user] is fulfilled with [undefined]
    and [Query.user] with the [ValidationError] object. *)
Theorem Tweets_user_versus_Query_user (fs : Firestore) (tweet : DocumentData) :
  calls (Tweets.user tweet) fs = calls (Query.user (author_key tweet)) fs
  /\ (outcome (Tweets.user tweet) fs = outcome (Query.user (author_key tweet)) fs
      <-> is_Some (fault fs (tweet_user_call tweet))
          \/ is_Some (user_document fs (author_key tweet)))
  /\ (fault fs (tweet_user_call tweet) = None ->
      user_document fs (author_key tweet) = None ->
      outcome (Tweets.user tweet) fs = Fulfilled VUndefined
      /\ outcome (Query.user (author_key tweet)) fs = Fulfilled user_id_not_found).
Proof.
  unfold calls. rewrite Tweets_user_outcome, Query_user_outcome.
  rewrite Tweets_user_run, Query_user_run.
  unfold tweet_user_call, query_user_call. simpl.
  split; [reflexivity |].
  destruct (fault fs _) as [e |].
  - split; [| discriminate]. split; [eauto | reflexivity].
  - destruct (user_document fs _) as [d |].
    + split; [| discriminate]. split; [eauto | reflexivity].
    + split; [| intros _ _; split; reflexivity].
      split; [discriminate |].
      intros [[x Hx] | [x Hx]]; discriminate.
Qed.

(** ** Following the relations *)

(** X7. From a user to its tweets and back.  When the store answers, every
    tweet [User.tweets] gives for a parent whose [id] is [i] resolves, through
    [Tweets.user], to the document stored at [users/i] (or to [undefined] if
    there is none): to the parent itself when the parent is the document
    stored under its own [id]. *)
Theorem tweets_of_user_lead_back (fs : Firestore) (user : DocumentData) (i : string) :
  get_field user "id" = JsString i ->
  fault fs (user_tweets_call user) = None ->
  fault fs (query_user_call i) = None ->
  exists items,
    outcome (User.tweets user) fs = Fulfilled (VArray items)
    /\ (forall t, t ∈ items ->
          outcome (Tweets.user t) fs
          = Fulfilled (match user_document fs i with
                       | Some d => VObject d
                       | None => VUndefined
                       end))
    /\ (user_document fs i = Some user ->
        forall t, t ∈ items -> outcome (Tweets.user t) fs = Fulfilled (VObject user)).
Proof.
  intros Hid Hok Hget.
  exists (filter (authored_by i) (tweets_of fs)).
  split; [apply User_tweets_of_id; assumption |].
  assert (Hback : forall t, t ∈ filter (authored_by i) (tweets_of fs) ->
            outcome (Tweets.user t) fs
            = Fulfilled (match user_document fs i with
                         | Some d => VObject d
                         | None => VUndefined
                         end)).
  { intros t Ht. apply list_elem_of_filter in Ht as [Hu _].
    rewrite Tweets_user_outcome. unfold tweet_user_call.
    rewrite (author_key_of t i Hu). unfold query_user_call in Hget.
    rewrite Hget. reflexivity. }
  split; [exact Hback |].
  intros Hself t Ht. rewrite (Hback t Ht), Hself. reflexivity.
Qed.

Lemma tweets_of_user_lead_back_witness :
  user_document sample "u1" = Some u1
  /\ exists items,
       outcome (User.tweets u1) sample = Fulfilled (VArray items)
       /\ forall t, t ∈ items -> outcome (Tweets.user t) sample = Fulfilled (VObject u1).
Proof.
  split; [reflexivity |].
  destruct (tweets_of_user_lead_back sample u1 "u1" eq_refl eq_refl eq_refl)
    as [items [Hout [_ Hself]]].
  exists items. split; [exact Hout |]. apply Hself. reflexivity.
Defined.

(** X8. From a tweet to its author and back.  When the store answers, a
    stored tweet with [userId] [k] whose author document, stored at [users/k],
    has [id] [k] is among the tweets [User.tweets] gives for the author that
    [Tweets.user] returned. *)
Theorem tweet_among_tweets_of_author (fs : Firestore) (t author : DocumentData)
    (k : string) :
  t ∈ tweets_of fs ->
  get_field t "userId" = JsString k ->
  user_document fs k = Some author ->
  get_field author "id" = JsString k ->
  fault fs (tweet_user_call t) = None ->
  fault fs (user_tweets_call author) = None ->
  outcome (Tweets.user t) fs = Fulfilled (VObject author)
  /\ exists items,
       outcome (User.tweets author) fs = Fulfilled (VArray items) /\ t ∈ items.
Proof.
  intros Hin Huid Hdoc Hid Hget Hok. split.
  - rewrite Tweets_user_outcome, Hget, (author_key_of t k Huid), Hdoc. reflexivity.
  - exists (filter (authored_by k) (tweets_of fs)).
    split; [apply User_tweets_of_id; assumption |].
    apply list_elem_of_filter. split; assumption.
Qed.

Lemma tweet_among_tweets_of_author_witness :
  t1 ∈ tweets_of sample
  /\ outcome (Tweets.user t1) sample = Fulfilled (VObject u1)
  /\ exists items,
       outcome (User.tweets u1) sample = Fulfilled (VArray items) /\ t1 ∈ items.
Proof.
  assert (Hin : t1 ∈ tweets_of sample) by (apply list_elem_of_here).
  split; [exact Hin |].
  apply (tweet_among_tweets_of_author sample t1 u1 "u1" Hin); reflexivity.
Defined.

(** X9. A tweet with no [userId] property: the template literal splices
    [undefined], so [Tweets.user] looks up the document [users/undefined]
    and, when the store answers, is fulfilled with whatever is stored there. *)
Theorem Tweets_user_without_userId (fs : Firestore) (tweet : DocumentData) :
  tweet !! "userId" = None ->
  calls (Tweets.user tweet) fs = [DocGet "users/undefined"]
  /\ (forall e, fault fs (DocGet "users/undefined") = Some e ->
      outcome (Tweets.user tweet) fs = Rejected (ApolloError e))
  /\ (fault fs (DocGet "users/undefined") = None ->
      outcome (Tweets.user tweet) fs
      = Fulfilled (match user_document fs "undefined" with
                   | Some d => VObject d
                   | None => VUndefined
                   end)).
Proof.
  intros Hmissing.
  assert (Hkey : author_key tweet = "undefined").
  { unfold author_key, get_field. rewrite Hmissing. reflexivity. }
  assert (Hout : forall tw, author_key tw = "undefined" ->
            outcome (Tweets.user tw) fs
            = match fault fs (DocGet "users/undefined") with
              | Some e => Rejected (ApolloError e)
              | None => Fulfilled (match user_document fs "undefined" with
                                   | Some d => VObject d
                                   | None => VUndefined
                                   end)
              end).
  { intros tw Htw. rewrite Tweets_user_outcome. unfold tweet_user_call.
    rewrite Htw. reflexivity. }
  split; [| split].
  - unfold calls. rewrite Tweets_user_run. unfold tweet_user_call.
    rewrite Hkey. reflexivity.
  - intros e Hfail. rewrite (Hout tweet Hkey), Hfail. reflexivity.
  - intros Hok. rewrite (Hout tweet Hkey), Hok. reflexivity.
Qed.

Lemma Tweets_user_without_userId_witness :
  orphan !! "userId" = None
  /\ calls (Tweets.user orphan) sample = [DocGet "users/undefined"]
  /\ outcome (Tweets.user orphan) sample = Fulfilled VUndefined.
Proof.
  split; [reflexivity |].
  destruct (Tweets_user_without_userId sample orphan eq_refl) as [Hcalls [_ Hout]].
  split; [exact Hcalls |]. exact (Hout eq_refl).
Defined.

(** ** The resolver map *)

Lemma resolver_of_cases (typeName fieldName : string) (r : Resolver) :
  resolver_of typeName fieldName = Some r ->
  (typeName = "User" /\ fieldName = "tweets" /\ r = fun user _ => User.tweets user)
  \/ (typeName = "Tweets" /\ fieldName = "user" /\ r = fun tweet _ => Tweets.user tweet)
  \/ (typeName = "Query" /\ fieldName = "tweets" /\ r = fun _ _ => Query.tweets)
  \/ (typeName = "Query" /\ fieldName = "user"
      /\ r = fun _ args => Query.user (template_string (get_field args "id"))).
Proof.
  unfold resolver_of, resolvers. simpl.
  repeat (case_decide; simpl); intros Hsome; simplify_eq; auto 10.
Qed.

Lemma resolution_cases (m : Async Value) :
  resolution m ->
  (exists user, m = User.tweets user)
  \/ (exists tweet, m = Tweets.user tweet)
  \/ m = Query.tweets
  \/ (exists id, m = Query.user id).
Proof.
  intros (typeName & fieldName & r & parent & args & Hr & ->).
  destruct (resolver_of_cases _ _ _ Hr)
    as [(_ & _ & ->) | [(_ & _ & ->) | [(_ & _ & ->) | (_ & _ & ->)]]]; eauto 6.
Qed.

Lemma resolution_User_tweets (user : DocumentData) : resolution (User.tweets user).
Proof. exists "User", "tweets", (fun user _ => User.tweets user), user, ∅. split; reflexivity. Qed.

Lemma resolution_Tweets_user (tweet : DocumentData) : resolution (Tweets.user tweet).
Proof. exists "Tweets", "user", (fun tweet _ => Tweets.user tweet), tweet, ∅. split; reflexivity. Qed.

Lemma resolution_Query_tweets : resolution Query.tweets.
Proof. exists "Query", "tweets", (fun _ _ => Query.tweets), ∅, ∅. split; reflexivity. Qed.

Lemma resolution_Query_user (id : string) : resolution (Query.user id).
Proof.
  exists "Query", "user",
    (fun _ args => Query.user (template_string (get_field args "id"))),
    ∅, {[ "id" := JsString id ]}.
  split; [reflexivity |].
  unfold get_field. rewrite lookup_singleton_eq. reflexivity.
Qed.

Lemma resolution_read_only (m : Async Value) : resolution m -> read_only m.
Proof.
  intros H. destruct (resolution_cases m H) as [[x ->] | [[x ->] | [-> | [x ->]]]];
    auto using User_tweets_read_only, Tweets_user_read_only,
      Query_tweets_read_only, Query_user_read_only.
Qed.

Lemma resolution_history_independent (m : Async Value) :
  resolution m -> history_independent m.
Proof.
  intros H. destruct (resolution_cases m H) as [[x ->] | [[x ->] | [-> | [x ->]]]];
    auto using User_tweets_history_independent, Tweets_user_history_independent,
      Query_tweets_history_independent, Query_user_history_independent.
Qed.

Lemma resolution_one_read (m : Async Value) (σ : Session) :
  resolution m ->
  exists call, issued (m σ).2 = (issued σ ++ [call])%list /\ is_write call = false.
Proof.
  intros H. destruct (resolution_cases m H) as [[x ->] | [[x ->] | [-> | [x ->]]]].
  - rewrite User_tweets_run. eexists. split; reflexivity.
  - rewrite Tweets_user_run. eexists. split; reflexivity.
  - rewrite Query_tweets_run. eexists. split; reflexivity.
  - rewrite Query_user_run. eexists. split; reflexivity.
Qed.

Lemma run_each_resolutions (ms : list (Async Value)) (σ : Session) :
  Forall resolution ms ->
  (run_each ms σ).1 = (fun m => outcome m (store σ)) <$> ms
  /\ store (run_each ms σ).2 = store σ
  /\ exists new, issued (run_each ms σ).2 = (issued σ ++ new)%list
                 /\ length new = length ms
                 /\ existsb is_write new = false.
Proof.
  intros Hall. revert σ. induction Hall as [| m ms Hm _ IH]; intros σ.
  - simpl. split; [reflexivity |]. split; [reflexivity |].
    exists []. rewrite app_nil_r. repeat split.
  - simpl. destruct (IH (m σ).2) as (Hout & Hstore & new & Hnew & Hlen & Hread).
    pose proof (resolution_read_only m Hm σ) as Hro.
    destruct (resolution_one_read m σ Hm) as (call & Hcall & Hcr).
    split; [| split].
    + rewrite Hout, Hro. f_equal.
      apply (any_session_same_outcome m σ), resolution_history_independent, Hm.
    + rewrite Hstore. exact Hro.
    + exists (call :: new). rewrite Hnew, Hcall, <- app_assoc. simpl.
      rewrite Hlen, Hcr, Hread. repeat split.
Qed.

(** X10. Resolver runs do not interfere and nothing is cached between them:
    after any sequence of runs of the map's resolvers in one session, every
    promise has settled as a lone run on the same store would, the store is
    unchanged, and exactly one store call per run was issued, none of them
    a write. *)
Theorem resolutions_in_sequence (ms : list (Async Value)) (fs : Firestore) :
  Forall resolution ms ->
  (run_each ms (begin fs)).1 = (fun m => outcome m fs) <$> ms
  /\ store (run_each ms (begin fs)).2 = fs
  /\ length (issued (run_each ms (begin fs)).2) = length ms
  /\ existsb is_write (issued (run_each ms (begin fs)).2) = false.
Proof.
  intros Hall.
  destruct (run_each_resolutions ms (begin fs) Hall)
    as (Hout & Hstore & new & Hnew & Hlen & Hread).
  split; [exact Hout |]. split; [exact Hstore |].
  rewrite Hnew. simpl. split; assumption.
Qed.

Lemma resolutions_in_sequence_witness :
  Forall resolution [Query.tweets; Tweets.user t1; Tweets.user t2]
  /\ issued (run_each [Query.tweets; Tweets.user t1; Tweets.user t2] (begin sample)).2
     = [CollectionGet "tweets"; DocGet "users/u1"; DocGet "users/u1"]
  /\ (run_each [Query.tweets; Tweets.user t1; Tweets.user t2] (begin sample)).1
     = [outcome Query.tweets sample; outcome (Tweets.user t1) sample;
        outcome (Tweets.user t2) sample].
Proof.
  assert (Hall : Forall resolution [Query.tweets; Tweets.user t1; Tweets.user t2]).
  { repeat constructor;
      [apply resolution_Query_tweets | apply resolution_Tweets_user
       | apply resolution_Tweets_user]. }
  split; [exact Hall |]. split; [reflexivity |].
  apply (resolutions_in_sequence _ sample Hall).
Defined.

(** X11. The resolver map and the schema agree: a field has a resolver in
    [resolvers] exactly when [typeDefs] declares it with a type that names one
    of the schema's own object types (under its list and non-null wrappers);
    the declared fields of scalar type have none. *)
Theorem resolvers_cover_relation_fields (typeName fieldName : string) :
  is_Some (resolver_of typeName fieldName)
  <-> exists fd, declared_field typeName fieldName = Some fd
                 /\ is_object_type (named_type (field_type fd)) = true.
Proof.
  split.
  - intros [r Hr].
    destruct (resolver_of_cases _ _ _ Hr)
      as [(-> & -> & _) | [(-> & -> & _) | [(-> & -> & _) | (-> & -> & _)]]];
      eexists; split; reflexivity.
  - intros (fd & Hfd & Hobj). revert Hfd.
    unfold declared_field, typeDefs. simpl.
    repeat (case_decide; simpl); try discriminate; subst typeName;
      repeat (case_bool_decide; simpl); try discriminate;
      intros Hfd; simplify_eq; try discriminate Hobj;
      eexists; reflexivity.
Qed.
